(** * Lifecycle of the syncer server

    A shallow embedding of [syncer/server/server.go] (the [Server] struct, its
    [Run]/[Stop] lifecycle and the helpers they call) and of
    [NewServerInformation] from the [proto] package.

    The server drives packages that are not part of the two modelled files
    (etcd, serf, grpc, servicecenter, ticker, gopool, syssig, plugins, utils).
    Their behaviour is taken as a parameter: a [Collaborators] instance gives,
    for every call the server makes, the new state of the object and the error
    it returns.  Every call to such a package is recorded, in program order, in
    a trace, so that ordering properties can be stated on the trace and state
    properties on the [Server] record. *)

From stdpp Require Import base option list strings gmap.
From Stdlib Require Import ZArith Ascii.

Open Scope Z_scope.
Open Scope string_scope.
Open Scope list_scope.

(** ** Go values *)

(** A Go [error]; the nil error is [None] of [option error]. *)
Definition error := string.

(** [syscall.Signal] is an integer type; the values are those of the Linux
    [syscall] package. *)
Definition Signal := Z.
Definition SIGINT : Signal := 2.
Definition SIGKILL : Signal := 9.
Definition SIGTERM : Signal := 15.

(** An [io.Writer] interface value.  [file_Writer f] is the interface holding
    the [*os.File] pointer [f] ([None] for a nil pointer): such an interface
    value is itself not nil. *)
Inductive io_Writer (File : Type) :=
  | nil_Writer
  | os_Stderr
  | file_Writer (f : option File).
Arguments nil_Writer {File}.
Arguments os_Stderr {File}.
Arguments file_Writer {File} f.

(** [strings.Split(s, sep)] for a separator of one byte, the only use the
    server makes of it ([","]): the substrings between the separators, and
    one empty string for the empty input. *)
Fixpoint strings_Split (s : string) (sep : ascii) : list string :=
  match s with
  | EmptyString => [EmptyString]
  | String a s' =>
      if Ascii.eqb a sep then EmptyString :: strings_Split s' sep
      else match strings_Split s' sep with
           | [] => [String a EmptyString]
           | x :: xs => String a x :: xs
           end
  end.

(** ** The collaborating packages *)

(** The fields of [config.Config] that the server reads.  [SerfConf] stands
    for the embedded serf configuration [conf.Config]. *)
Record config_Config := {
  SerfConf : string;
  LogFile : string;
  JoinAddr : string;
  RPCAddr : string;
  SCAddr : string;
  TickerInterval : Z;
  ServicecenterPlugin : string;
}.

(** What the server calls in other packages.  A method of a pointer receiver
    is a function from the state of the object to its new state, paired with
    the returned error where the method returns one. *)
Class Collaborators := {
  TaskTicker : Type;
  EtcdAgent : Type;
  SerfAgent : Type;
  GrpcServer : Type;
  Servicecenter : Type;
  Storage : Type;
  File : Type;
  (* plugins *)
  plugins_PluginServicecenter : string;
  (* etcd *)
  etcd_NewAgent : EtcdAgent;
  etcd_Run : EtcdAgent → EtcdAgent * option error;
  etcd_Storage : EtcdAgent → Storage;
  etcd_Stop : EtcdAgent → EtcdAgent;
  (* utils *)
  utils_OpenFile : string → option File * option error;
  (* serf *)
  serf_Create : string → io_Writer File → option SerfAgent * option error;
  serf_RegisterEventHandler : SerfAgent → SerfAgent;
  serf_Start : SerfAgent → SerfAgent * option error;
  serf_Join : SerfAgent → list string → bool → SerfAgent * option error;
  serf_DeregisterEventHandler : SerfAgent → SerfAgent;
  serf_Leave : SerfAgent → SerfAgent;
  serf_Shutdown : SerfAgent → SerfAgent;
  (* grpc *)
  grpc_NewServer : string → GrpcServer;
  grpc_Run : GrpcServer → GrpcServer * option error;
  grpc_Stop : GrpcServer → GrpcServer;
  (* servicecenter *)
  servicecenter_NewServicecenter :
    list string → Storage → option Servicecenter * option error;
  (* ticker *)
  ticker_NewTaskTicker : Z → TaskTicker;
  ticker_Stop : TaskTicker → TaskTicker;
  (* syssig *)
  syssig_AddSignalsHandler : list Signal → option error;
}.

(** The calls into other packages, as they appear in the trace. *)
Inductive Call :=
  | c_plugins_SetPluginConfig (name cfg : string)
  | c_plugins_LoadPlugins
  | c_etcd_NewAgent
  | c_etcd_Run
  | c_etcd_Storage
  | c_etcd_Stop
  | c_utils_OpenFile (path : string)
  | c_serf_Create
  | c_serf_RegisterEventHandler
  | c_serf_Start
  | c_serf_Join (addrs : list string)
  | c_serf_DeregisterEventHandler
  | c_serf_Leave
  | c_serf_Shutdown
  | c_grpc_NewServer (addr : string)
  | c_grpc_Run
  | c_grpc_Stop
  | c_servicecenter_NewServicecenter (addrs : list string)
  | c_ticker_NewTaskTicker (interval : Z)
  | c_ticker_Stop
  | c_gopool_Go_tick_Start
  | c_gopool_CloseAndWait
  | c_syssig_AddSignalsHandler (sigs : list Signal)
  | c_syssig_Run
  | c_log_Errorf (format : string).

#[global] Instance Call_eq_dec : EqDecision Call.
Proof. solve_decision. Defined.

Section Server.
Context {K : Collaborators}.

(** ** The server *)

(** [type Server struct]: every field but [conf] is a pointer or an interface,
    nil until the matching startup step assigns it.  [conf] is a pointer
    too; the lifecycle reads through it from its first statement on
    ([initPlugin]), and the model takes it to be set: a server is a server
    with a configuration.  The objects the fields
    point to are distinct and reached through these fields only, so a field
    holds the state of its object; a method call on the object replaces it. *)
Record Server := {
  conf : config_Config;
  tick : option TaskTicker;
  servicecenter : option Servicecenter;
  etcd : option EtcdAgent;
  agent : option SerfAgent;
  grpc : option GrpcServer;
}.

Definition NewServer (c : config_Config) : Server :=
  {| conf := c; tick := None; servicecenter := None; etcd := None;
     agent := None; grpc := None |}.

(** ** Methods as state transformers with a trace *)

(** The outcome of running a method on a server: the returned value ([None]
    when the method panicked on a nil receiver), the server it leaves, and
    the calls it made, oldest first. *)
Record Out (A : Type) := mkOut {
  result : option A;
  final : Server;
  trace : list Call;
}.
Arguments mkOut {A} result final trace.
Arguments result {A} o.
Arguments final {A} o.
Arguments trace {A} o.

Definition M (A : Type) : Type := Server → Out A.

#[global] Instance M_ret : MRet M := λ A a s, mkOut (Some a) s [].

#[global] Instance M_bind : MBind M := λ A B k m s,
  match m s with
  | mkOut None s' t => mkOut None s' t
  | mkOut (Some a) s' t =>
      match k a s' with
      | mkOut r s'' t' => mkOut r s'' (t ++ t')
      end
  end.

Definition get : M Server := λ s, mkOut (Some s) s [].
Definition put (s' : Server) : M unit := λ _, mkOut (Some ()) s' [].
Definition call (c : Call) : M unit := λ s, mkOut (Some ()) s [c].
Definition panic {A} : M A := λ s, mkOut None s [].
Definition when (b : bool) (m : M unit) : M unit :=
  if b then m else mret ().

(** The test [p != nil] on a pointer or interface value. *)
Definition non_nil {T} (p : option T) : bool :=
  match p with Some _ => true | None => false end.

Definition set_tick (v : option TaskTicker) : M unit :=
  s ← get;
  put {| conf := conf s; tick := v; servicecenter := servicecenter s;
         etcd := etcd s; agent := agent s; grpc := grpc s |}.
Definition set_servicecenter (v : option Servicecenter) : M unit :=
  s ← get;
  put {| conf := conf s; tick := tick s; servicecenter := v;
         etcd := etcd s; agent := agent s; grpc := grpc s |}.
Definition set_etcd (v : option EtcdAgent) : M unit :=
  s ← get;
  put {| conf := conf s; tick := tick s; servicecenter := servicecenter s;
         etcd := v; agent := agent s; grpc := grpc s |}.
Definition set_agent (v : option SerfAgent) : M unit :=
  s ← get;
  put {| conf := conf s; tick := tick s; servicecenter := servicecenter s;
         etcd := etcd s; agent := v; grpc := grpc s |}.
Definition set_grpc (v : option GrpcServer) : M unit :=
  s ← get;
  put {| conf := conf s; tick := tick s; servicecenter := servicecenter s;
         etcd := etcd s; agent := agent s; grpc := v |}.

(** A method call [s.f.m()] on the object a field points to: a panic when the
    field is nil, otherwise the call is traced and the object updated. *)
Definition invoke {T} (fld : Server → option T) (upd : option T → M unit)
    (c : Call) (m : T → T * option error) : M (option error) :=
  s ← get;
  match fld s with
  | None => panic
  | Some x => call c;; upd (Some (m x).1);; mret (m x).2
  end.

Definition invoke_ {T} (fld : Server → option T) (upd : option T → M unit)
    (c : Call) (m : T → T) : M unit :=
  invoke fld upd c (λ x, (m x, None));; mret ().

Definition log_Errorf (err : option error) (format : string) : M unit :=
  call (c_log_Errorf format).

(** ** Shutdown *)

Definition Stop : M unit :=
  s ← get;
  when (non_nil (tick s))
    (invoke_ tick set_tick c_ticker_Stop ticker_Stop);;
  s ← get;
  when (non_nil (agent s))
    (invoke_ agent set_agent c_serf_DeregisterEventHandler
       serf_DeregisterEventHandler;;
     invoke_ agent set_agent c_serf_Leave serf_Leave;;
     invoke_ agent set_agent c_serf_Shutdown serf_Shutdown);;
  s ← get;
  when (non_nil (grpc s))
    (invoke_ grpc set_grpc c_grpc_Stop grpc_Stop);;
  s ← get;
  when (non_nil (etcd s))
    (invoke_ etcd set_etcd c_etcd_Stop etcd_Stop);;
  call c_gopool_CloseAndWait.

(** ** Startup steps *)

Definition initPlugin : M unit :=
  s ← get;
  call (c_plugins_SetPluginConfig plugins_PluginServicecenter
          (ServicecenterPlugin (conf s)));;
  call c_plugins_LoadPlugins.

Definition runEtcd : M (option error) :=
  call c_etcd_NewAgent;;
  set_etcd (Some etcd_NewAgent);;
  err ← invoke etcd set_etcd c_etcd_Run etcd_Run;
  when (non_nil err) (log_Errorf err "Run etcd failed, %s");;
  mret err.

Definition createLogFile (logFile : string) : M (io_Writer File) :=
  let fw := os_Stderr in
  if bool_decide (logFile = "") then mret fw
  else
    call (c_utils_OpenFile logFile);;
    let '(f, err) := utils_OpenFile logFile in
    if non_nil err then
      log_Errorf err "Syncer open log file %s failed";;
      mret fw
    else mret (file_Writer f).

Definition runSerf : M (option error) :=
  s ← get;
  fw ← createLogFile (LogFile (conf s));
  call c_serf_Create;;
  let '(a, err) := serf_Create (SerfConf (conf s)) fw in
  set_agent a;;
  if non_nil err then
    log_Errorf err "Create serf failed, %s";;
    mret err
  else
    invoke_ agent set_agent c_serf_RegisterEventHandler
      serf_RegisterEventHandler;;
    err ← invoke agent set_agent c_serf_Start serf_Start;
    if non_nil err then
      log_Errorf err "Start serf failed, %s";;
      mret err
    else
      if bool_decide (JoinAddr (conf s) ≠ "") then
        err ← invoke agent set_agent (c_serf_Join [JoinAddr (conf s)])
                (λ a, serf_Join a [JoinAddr (conf s)] false);
        when (non_nil err) (log_Errorf err "Join serf cluster failed, %s");;
        mret err
      else mret err.

Definition runGrpc : M (option error) :=
  s ← get;
  call (c_grpc_NewServer (RPCAddr (conf s)));;
  set_grpc (Some (grpc_NewServer (RPCAddr (conf s))));;
  err ← invoke grpc set_grpc c_grpc_Run grpc_Run;
  when (non_nil err) (log_Errorf err "Run grpc failed, %s");;
  mret err.

Definition createServiceCenter : M (option error) :=
  s ← get;
  let addrs := strings_Split (SCAddr (conf s)) "," in
  match etcd s with
  | None => panic
  | Some e =>
      call c_etcd_Storage;;
      call (c_servicecenter_NewServicecenter addrs);;
      let '(sc, err) := servicecenter_NewServicecenter addrs (etcd_Storage e) in
      set_servicecenter sc;;
      when (non_nil err) (log_Errorf err "Create service center failed, %s");;
      mret err
  end.

(** [gopool.Go(s.tick.Start)] hands the ticker loop to the goroutine pool; the
    trace records the hand-over, the loop itself runs outside the server. *)
Definition runTicker : M (option error) :=
  s ← get;
  call (c_ticker_NewTaskTicker (TickerInterval (conf s)));;
  set_tick (Some (ticker_NewTaskTicker (TickerInterval (conf s))));;
  call c_gopool_Go_tick_Start;;
  mret None.

(** ** Waiting for the quit signal *)

(** What [syssig.Run(ctx)] observes while it blocks: the signals delivered to
    the process, in order of arrival, until the context is done.  (A kill
    signal cannot be caught; the properties that depend on this say so.) *)
Record context_Context := { delivered : list Signal }.

(** Modelled from the spec: the package [syssig] ([AddSignalsHandler], [Run])
    is not among the modelled files.  The spec has the handler "installed at
    startup, guaranteed invoked at most once", calling [Stop] "exactly once
    even if multiple signals arrive": [Run] waits for the first delivered
    signal that a handler was installed for, runs the handler, and returns;
    signals without a handler are passed over, and so is everything that
    arrives after the first handled one. *)
Fixpoint syssig_dispatch (installed : list Signal) (handler : M unit)
    (arrivals : list Signal) : M unit :=
  match arrivals with
  | [] => mret ()
  | sig :: rest =>
      if bool_decide (sig ∈ installed) then handler
      else syssig_dispatch installed handler rest
  end.

Definition syssig_Run (installed : list Signal) (handler : M unit)
    (ctx : context_Context) : M unit :=
  call c_syssig_Run;;
  syssig_dispatch installed handler (delivered ctx).

(** The signals [waitQuit] passes to [syssig.AddSignalsHandler]. *)
Definition quit_signals : list Signal := [SIGINT; SIGKILL; SIGTERM].

Definition waitQuit (ctx : context_Context) : M unit :=
  call (c_syssig_AddSignalsHandler quit_signals);;
  let err := syssig_AddSignalsHandler quit_signals in
  if non_nil err then
    log_Errorf err "Syncer add signals handler failed"
  else syssig_Run quit_signals Stop ctx.

(** ** Run *)

Definition Run (ctx : context_Context) : M unit :=
  initPlugin;;
  err ← runEtcd;
  if non_nil err then mret () else
  err ← runSerf;
  if non_nil err then mret () else
  err ← runGrpc;
  if non_nil err then mret () else
  err ← createServiceCenter;
  if non_nil err then mret () else
  err ← runTicker;
  if non_nil err then mret () else
  waitQuit ctx.

End Server.

Arguments mkOut {K A} result final trace.
Arguments result {K A} o.
Arguments final {K A} o.
Arguments trace {K A} o.

(** ** Reading a trace *)

(** The components of the spec's overview that the server owns. *)
Inductive Component :=
  | LocalStateStore
  | MembershipAdapter
  | TransportServer
  | RegistryBridge
  | Timer.

#[global] Instance Component_eq_dec : EqDecision Component.
Proof. solve_decision. Defined.

(** The component a call belongs to when it is made by that component's
    startup step ([runEtcd], [runSerf], [runGrpc], [createServiceCenter],
    [runTicker]). *)
Definition starts (c : Call) : option Component :=
  match c with
  | c_etcd_NewAgent | c_etcd_Run => Some LocalStateStore
  | c_utils_OpenFile _ | c_serf_Create | c_serf_RegisterEventHandler
  | c_serf_Start | c_serf_Join _ => Some MembershipAdapter
  | c_grpc_NewServer _ | c_grpc_Run => Some TransportServer
  | c_etcd_Storage | c_servicecenter_NewServicecenter _ => Some RegistryBridge
  | c_ticker_NewTaskTicker _ | c_gopool_Go_tick_Start => Some Timer
  | _ => None
  end.

(** The component a shutdown call releases. *)
Definition stops (c : Call) : option Component :=
  match c with
  | c_ticker_Stop => Some Timer
  | c_serf_DeregisterEventHandler | c_serf_Leave | c_serf_Shutdown =>
      Some MembershipAdapter
  | c_grpc_Stop => Some TransportServer
  | c_etcd_Stop => Some LocalStateStore
  | _ => None
  end.

(** The components a trace touches under a classification of its calls,
    each listed once, in the order of their last calls.  When the calls of
    every component form one block, as the calls of a startup step or of a
    release do, this is also the order in which the trace first touches
    them. *)
Definition order_of (f : Call → option Component) (tr : list Call)
    : list Component :=
  remove_dups (omap f tr).

Definition startup_order : list Component :=
  [LocalStateStore; MembershipAdapter; TransportServer; RegistryBridge; Timer].

(** The release steps of [Stop] in program order. *)
Definition stop_sequence : list Call :=
  [c_ticker_Stop; c_serf_DeregisterEventHandler; c_serf_Leave;
   c_serf_Shutdown; c_grpc_Stop; c_etcd_Stop].

(** The part of a trace before the first call satisfying [p], and the part
    after it. *)
Fixpoint split_at (p : Call → bool) (tr : list Call)
    : option (list Call * list Call) :=
  match tr with
  | [] => None
  | c :: rest =>
      if p c then Some ([], rest)
      else match split_at p rest with
           | Some (pre, post) => Some (c :: pre, post)
           | None => None
           end
  end.

Definition is_RegisterEventHandler (c : Call) : bool :=
  match c with c_serf_RegisterEventHandler => true | _ => false end.
Definition is_Go_tick_Start (c : Call) : bool :=
  match c with c_gopool_Go_tick_Start => true | _ => false end.
Definition is_serf_Join (c : Call) : bool :=
  match c with c_serf_Join _ => true | _ => false end.
Definition is_waitQuit_call (c : Call) : bool :=
  match c with
  | c_syssig_AddSignalsHandler _ | c_syssig_Run => true
  | _ => false
  end.

(** A call that only [Stop] makes. *)
Definition is_Stop_call (c : Call) : bool :=
  match c with
  | c_gopool_CloseAndWait => true
  | _ => bool_decide (stops c ≠ None)
  end.

(** The startup order up to and including a component. *)
Definition through (c : Component) : list Component :=
  match c with
  | LocalStateStore => [LocalStateStore]
  | MembershipAdapter => [LocalStateStore; MembershipAdapter]
  | TransportServer => [LocalStateStore; MembershipAdapter; TransportServer]
  | RegistryBridge =>
      [LocalStateStore; MembershipAdapter; TransportServer; RegistryBridge]
  | Timer => startup_order
  end.


(** The number of runs of [Stop] a trace records: every run of [Stop] ends
    with one [gopool.CloseAndWait], which nothing else calls. *)
Definition Stop_count (tr : list Call) : nat :=
  length (filter (λ c, c = c_gopool_CloseAndWait) tr).

Section Startup.
Context {K : Collaborators}.

(** Whether the server holds the component (the field is not nil). *)
Definition holds (s : Server) (c : Component) : bool :=
  match c with
  | LocalStateStore => non_nil (etcd s)
  | MembershipAdapter => non_nil (agent s)
  | TransportServer => non_nil (grpc s)
  | RegistryBridge => non_nil (servicecenter s)
  | Timer => non_nil (tick s)
  end.

(** The startup steps of [Run], in program order, with the component each
    one brings up. *)
Definition steps : list (Component * M (option error)) :=
  [(LocalStateStore, runEtcd); (MembershipAdapter, runSerf);
   (TransportServer, runGrpc); (RegistryBridge, createServiceCenter);
   (Timer, runTicker)].

(** Runs the steps until one returns an error; the result is the component
    whose step failed, [None] when every step returned nil. *)
Fixpoint startup (l : list (Component * M (option error)))
    : M (option Component) :=
  match l with
  | [] => mret None
  | (c, m) :: rest =>
      err ← m;
      if non_nil err then mret (Some c) else startup rest
  end.

(** The server as [Stop] leaves it: the fields keep pointing to the same
    objects, each of which has gone through its release calls. *)
Definition released (s : Server) : Server :=
  {| conf := conf s;
     tick := ticker_Stop <$> tick s;
     servicecenter := servicecenter s;
     etcd := etcd_Stop <$> etcd s;
     agent :=
       (λ a, serf_Shutdown (serf_Leave (serf_DeregisterEventHandler a)))
         <$> agent s;
     grpc := grpc_Stop <$> grpc s |}.

End Startup.

(** ** A collaborator instance to run the server on *)

(** Every object is reduced to its lifecycle, and a fault plan says which of
    the fallible calls return an error. *)
Inductive Life := Created | Running | Stopped.

Record SimAgent := {
  a_life : Life;
  a_handler : bool;
  a_member : bool;
}.

Record Faults := {
  fail_etcd_Run : bool;
  fail_OpenFile : bool;
  fail_serf_Create : bool;
  fail_serf_Start : bool;
  fail_serf_Join : bool;
  fail_grpc_Run : bool;
  fail_NewServicecenter : bool;
  fail_AddSignalsHandler : bool;
}.

Definition no_faults : Faults :=
  {| fail_etcd_Run := false; fail_OpenFile := false;
     fail_serf_Create := false; fail_serf_Start := false;
     fail_serf_Join := false; fail_grpc_Run := false;
     fail_NewServicecenter := false; fail_AddSignalsHandler := false |}.

Definition failing (b : bool) (msg : error) : option error :=
  if b then Some msg else None.

Definition sim (f : Faults) : Collaborators :=
  {| TaskTicker := Life;
     EtcdAgent := Life;
     SerfAgent := SimAgent;
     GrpcServer := Life;
     Servicecenter := list string;
     Storage := unit;
     File := string;
     plugins_PluginServicecenter := "servicecenter";
     etcd_NewAgent := Created;
     etcd_Run := λ e,
       if fail_etcd_Run f then (e, Some "etcd") else (Running, None);
     etcd_Storage := λ _, ();
     etcd_Stop := λ _, Stopped;
     utils_OpenFile := λ path,
       if fail_OpenFile f then (None, Some "open") else (Some path, None);
     serf_Create := λ _ _,
       if fail_serf_Create f then (None, Some "create")
       else (Some {| a_life := Created; a_handler := false;
                     a_member := false |}, None);
     serf_RegisterEventHandler := λ a,
       {| a_life := a_life a; a_handler := true; a_member := a_member a |};
     serf_Start := λ a,
       if fail_serf_Start f then (a, Some "start")
       else ({| a_life := Running; a_handler := a_handler a;
                a_member := a_member a |}, None);
     serf_Join := λ a _ _,
       if fail_serf_Join f then (a, Some "join")
       else ({| a_life := a_life a; a_handler := a_handler a;
                a_member := true |}, None);
     serf_DeregisterEventHandler := λ a,
       {| a_life := a_life a; a_handler := false; a_member := a_member a |};
     serf_Leave := λ a,
       {| a_life := a_life a; a_handler := a_handler a; a_member := false |};
     serf_Shutdown := λ a,
       {| a_life := Stopped; a_handler := a_handler a;
          a_member := a_member a |};
     grpc_NewServer := λ _, Created;
     grpc_Run := λ g,
       if fail_grpc_Run f then (g, Some "grpc") else (Running, None);
     grpc_Stop := λ _, Stopped;
     servicecenter_NewServicecenter := λ addrs _,
       if fail_NewServicecenter f then (None, Some "servicecenter")
       else (Some addrs, None);
     ticker_NewTaskTicker := λ _, Created;
     ticker_Stop := λ _, Stopped;
     syssig_AddSignalsHandler := λ _,
       failing (fail_AddSignalsHandler f) "signals" |}.

Definition sample_conf : config_Config :=
  {| SerfConf := "serf"; LogFile := ""; JoinAddr := "10.0.0.2:30190";
     RPCAddr := "0.0.0.0:30196"; SCAddr := "127.0.0.1:30100,127.0.0.1:30101";
     TickerInterval := 30; ServicecenterPlugin := "" |}.

Definition serf_Create_fails : Faults :=
  {| fail_etcd_Run := false; fail_OpenFile := false;
     fail_serf_Create := true; fail_serf_Start := false;
     fail_serf_Join := false; fail_grpc_Run := false;
     fail_NewServicecenter := false; fail_AddSignalsHandler := false |}.

Definition serf_Join_fails : Faults :=
  {| fail_etcd_Run := false; fail_OpenFile := false;
     fail_serf_Create := false; fail_serf_Start := false;
     fail_serf_Join := true; fail_grpc_Run := false;
     fail_NewServicecenter := false; fail_AddSignalsHandler := false |}.

Definition first_node_conf : config_Config :=
  {| SerfConf := "serf"; LogFile := "/var/log/syncer.log"; JoinAddr := "";
     RPCAddr := "0.0.0.0:30196"; SCAddr := "127.0.0.1:30100";
     TickerInterval := 30; ServicecenterPlugin := "" |}.

(** A process that receives a terminate and then an interrupt signal. *)
Definition two_signals : context_Context :=
  {| delivered := [SIGTERM; SIGINT] |}.

(** ** The [proto] package: server information *)

Section Proto.
(** The values a [util.JSONObject] holds (Go's [interface{}]). *)
Context {Value : Type}.

(** [util.JSONObject] is a Go map from strings: [None] is the nil map, which
    can be read but not written. *)
Definition JSONObject : Type := option (gmap string Value).

Definition make_JSONObject : JSONObject := Some ∅.

Definition JSONObject_len (m : JSONObject) : nat :=
  match m with None => 0%nat | Some g => size g end.

(** [m[k] = v]: [None] is the panic of an assignment to an entry of a nil
    map. *)
Definition JSONObject_store (m : JSONObject) (k : string) (v : Value)
    : option JSONObject :=
  match m with
  | None => None
  | Some g => Some (Some (<[k:=v]> g))
  end.

(** [int64] and [time.Duration] fields are integers. *)
Record ServerConfig := {
  MaxHeaderBytes : Z;
  MaxBodyBytes : Z;
  ReadHeaderTimeout : string;
  ReadTimeout : string;
  IdleTimeout : string;
  WriteTimeout : string;
  LimitTTLUnit : string;
  LimitConnections : Z;
  LimitIPLookup : string;
  SslEnabled : bool;
  SslMinVersion : string;
  SslVerifyPeer : bool;
  SslCiphers : string;
  AutoSyncInterval : string;
  CompactIndexDelta : Z;
  CompactInterval : string;
  EnablePProf : bool;
  EnableCache : bool;
  LogRotateSize : Z;
  LogBackupCount : Z;
  LogFilePath : string;
  LogLevel : string;
  LogFormat : string;
  LogSys : bool;
  EnableAccessLog : bool;
  AccessLogFile : string;
  PluginsDir : string;
  Plugins : JSONObject;
  SelfRegister : bool;
  ServiceClearEnabled : bool;
  ServiceClearInterval : Z;
  ServiceTTL : Z;
  CacheTTL : Z;
}.

Record ServerInformation := {
  Version : string;
  Config : ServerConfig;
}.

(** The zero value of [ServerConfig] with the given [Plugins]: what the
    composite literal [ServerConfig{Plugins: p}] denotes. *)
Definition ServerConfig_with_Plugins (p : JSONObject) : ServerConfig :=
  {| MaxHeaderBytes := 0; MaxBodyBytes := 0; ReadHeaderTimeout := "";
     ReadTimeout := ""; IdleTimeout := ""; WriteTimeout := "";
     LimitTTLUnit := ""; LimitConnections := 0; LimitIPLookup := "";
     SslEnabled := false; SslMinVersion := ""; SslVerifyPeer := false;
     SslCiphers := ""; AutoSyncInterval := ""; CompactIndexDelta := 0;
     CompactInterval := ""; EnablePProf := false; EnableCache := false;
     LogRotateSize := 0; LogBackupCount := 0; LogFilePath := "";
     LogLevel := ""; LogFormat := ""; LogSys := false;
     EnableAccessLog := false; AccessLogFile := ""; PluginsDir := "";
     Plugins := p; SelfRegister := false; ServiceClearEnabled := false;
     ServiceClearInterval := 0; ServiceTTL := 0; CacheTTL := 0 |}.

Definition NewServerInformation : ServerInformation :=
  {| Version := "";
     Config := ServerConfig_with_Plugins make_JSONObject |}.

End Proto.

(** ** Further vocabulary for traces and configurations *)

(** [strings.Join(parts, sep)] for a separator of one byte. *)
Fixpoint strings_Join (parts : list string) (sep : ascii) : string :=
  match parts with
  | [] => EmptyString
  | [p] => p
  | p :: rest => p +:+ String sep (strings_Join rest sep)
  end.

(** Whether a byte occurs in a string. *)
Fixpoint strings_ContainsByte (s : string) (b : ascii) : bool :=
  match s with
  | EmptyString => false
  | String a s' => Ascii.eqb a b || strings_ContainsByte s' b
  end.

(** The number of occurrences of a byte in a string. *)
Fixpoint strings_CountByte (s : string) (b : ascii) : nat :=
  match s with
  | EmptyString => 0%nat
  | String a s' =>
      if Ascii.eqb a b then S (strings_CountByte s' b)
      else strings_CountByte s' b
  end.

(** The formats of the errors a startup step logs when it fails. *)
Definition failure_formats (c : Component) : list string :=
  match c with
  | LocalStateStore => ["Run etcd failed, %s"]
  | MembershipAdapter =>
      ["Create serf failed, %s"; "Start serf failed, %s";
       "Join serf cluster failed, %s"]
  | TransportServer => ["Run grpc failed, %s"]
  | RegistryBridge => ["Create service center failed, %s"]
  | Timer => []
  end.

Definition is_plugins_call (c : Call) : bool :=
  match c with
  | c_plugins_SetPluginConfig _ _ | c_plugins_LoadPlugins => true
  | _ => false
  end.

(** The calls into the serf package that [runSerf] makes. *)
Definition is_serf_call (c : Call) : bool :=
  match c with
  | c_serf_Create | c_serf_RegisterEventHandler | c_serf_Start
  | c_serf_Join _ => true
  | _ => false
  end.

(** The configuration with no log file set. *)
Definition without_LogFile (c : config_Config) : config_Config :=
  {| SerfConf := SerfConf c; LogFile := ""; JoinAddr := JoinAddr c;
     RPCAddr := RPCAddr c; SCAddr := SCAddr c;
     TickerInterval := TickerInterval c;
     ServicecenterPlugin := ServicecenterPlugin c |}.

Section Reconfigure.
Context {K : Collaborators}.

(** The server with another configuration and the same components. *)
Definition with_conf (s : Server) (c : config_Config) : Server :=
  {| conf := c; tick := tick s; servicecenter := servicecenter s;
     etcd := etcd s; agent := agent s; grpc := grpc s |}.

End Reconfigure.

(** A fault plan in which opening the log file fails. *)
Definition OpenFile_fails : Faults :=
  {| fail_etcd_Run := false; fail_OpenFile := true;
     fail_serf_Create := false; fail_serf_Start := false;
     fail_serf_Join := false; fail_grpc_Run := false;
     fail_NewServicecenter := false; fail_AddSignalsHandler := false |}.

Definition AddSignalsHandler_fails : Faults :=
  {| fail_etcd_Run := false; fail_OpenFile := false;
     fail_serf_Create := false; fail_serf_Start := false;
     fail_serf_Join := false; fail_grpc_Run := false;
     fail_NewServicecenter := false; fail_AddSignalsHandler := true |}.

Definition grpc_Run_fails : Faults :=
  {| fail_etcd_Run := false; fail_OpenFile := false;
     fail_serf_Create := false; fail_serf_Start := false;
     fail_serf_Join := false; fail_grpc_Run := true;
     fail_NewServicecenter := false; fail_AddSignalsHandler := false |}.


(** * Properties *)

(** Symbolic execution of a method: unfold the monad and the startup steps,
    and split on the outcome of the next call that blocks the evaluation. *)
Ltac unfold_M :=
  cbv beta iota zeta delta
    [mbind M_bind mret M_ret get put call panic when invoke invoke_
     log_Errorf set_tick set_servicecenter set_etcd set_agent set_grpc
     non_nil fst snd app
     initPlugin runEtcd runSerf runGrpc createServiceCenter runTicker
     createLogFile startup steps
     conf tick servicecenter etcd agent grpc result final trace].

Ltac exec_step :=
  match goal with
  | |- context [match ?x with _ => _ end] =>
      lazymatch x with
      | context [match _ with _ => _ end] => fail
      | split_at _ _ => fail
      | context [bool_decide] => case_bool_decide
      | fst ?p => destruct p eqn:?
      | snd ?p => destruct p eqn:?
      | _ => destruct x eqn:?
      end
  end.

Ltac exec := repeat (unfold_M; try exec_step).

Section Laws.
Context {K : Collaborators}.

Lemma bind_eq {A B} (m : M A) (k : A → M B) s :
  (m ≫= k) s =
    match m s with
    | mkOut None s' t => mkOut None s' t
    | mkOut (Some a) s' t =>
        match k a s' with
        | mkOut r s'' t' => mkOut r s'' (t ++ t')
        end
    end.
Proof. reflexivity. Qed.

(** [Stop] in closed form. *)
Lemma Stop_spec s :
  Stop s = mkOut (Some ()) (released s)
             (filter (λ c, from_option (holds s) false (stops c)) stop_sequence
                ++ [c_gopool_CloseAndWait]).
Proof.
  destruct s as [c [t|] sc [e|] [a|] [g|]]; reflexivity.
Qed.

Lemma Stop_trace_not_startup s :
  omap starts (trace (Stop s)) = [].
Proof.
  rewrite Stop_spec.
  destruct s as [c [t|] sc [e|] [a|] [g|]]; reflexivity.
Qed.

(** The dispatch loop runs the handler once if a delivered signal has a
    handler installed, and not at all otherwise. *)
Lemma syssig_dispatch_spec installed (handler : M unit) arrivals s :
  syssig_dispatch installed handler arrivals s =
    if existsb (λ sig, bool_decide (sig ∈ installed)) arrivals
    then handler s else mkOut (Some ()) s [].
Proof.
  induction arrivals as [|sig rest IH]; simpl; [done|].
  destruct (bool_decide (sig ∈ installed)); simpl; [done|apply IH].
Qed.

Lemma waitQuit_spec ctx s :
  waitQuit ctx s =
    match syssig_AddSignalsHandler quit_signals with
    | Some _ =>
        mkOut (Some ()) s
          [c_syssig_AddSignalsHandler quit_signals;
           c_log_Errorf "Syncer add signals handler failed"]
    | None =>
        if existsb (λ sig, bool_decide (sig ∈ quit_signals)) (delivered ctx)
        then mkOut (Some ()) (released s)
               ([c_syssig_AddSignalsHandler quit_signals; c_syssig_Run]
                  ++ trace (Stop s))
        else mkOut (Some ()) s
               [c_syssig_AddSignalsHandler quit_signals; c_syssig_Run]
    end.
Proof.
  unfold waitQuit, syssig_Run, log_Errorf, call, mbind, M_bind. simpl.
  destruct (syssig_AddSignalsHandler quit_signals); simpl; [done|].
  rewrite syssig_dispatch_spec.
  destruct (existsb _ _); [|done].
  by rewrite Stop_spec.
Qed.

Lemma waitQuit_trace_not_startup ctx s :
  omap starts (trace (waitQuit ctx s)) = [].
Proof.
  rewrite waitQuit_spec.
  destruct (syssig_AddSignalsHandler quit_signals); [done|].
  destruct (existsb _ _); [|done].
  simpl. apply Stop_trace_not_startup.
Qed.

(** [Run] is [initPlugin], then the startup steps up to the first error,
    then, when there was none, [waitQuit]. *)
Lemma Run_startup ctx s :
  Run ctx s =
    (initPlugin;;
     failed ← startup steps;
     if non_nil failed then mret () else waitQuit ctx) s.
Proof.
  unfold Run. exec; rewrite <- ?app_assoc; reflexivity.
Qed.

Lemma initPlugin_spec s :
  initPlugin s =
    mkOut (Some ()) s
      [c_plugins_SetPluginConfig plugins_PluginServicecenter
         (ServicecenterPlugin (conf s));
       c_plugins_LoadPlugins].
Proof. reflexivity. Qed.

(** The three ways [Run] can end. *)
Lemma Run_cases ctx s :
  let o := startup steps s in
  match result o with
  | None => Run ctx s = mkOut None (final o) (trace (initPlugin s) ++ trace o)
  | Some (Some _) =>
      Run ctx s = mkOut (Some ()) (final o) (trace (initPlugin s) ++ trace o)
  | Some None =>
      Run ctx s =
        mkOut (result (waitQuit ctx (final o))) (final (waitQuit ctx (final o)))
          (trace (initPlugin s) ++ trace o ++ trace (waitQuit ctx (final o)))
  end.
Proof.
  intros o. rewrite Run_startup, bind_eq, initPlugin_spec, bind_eq.
  subst o. destruct (startup steps s) as [[[c|]|] s' t]; cbn.
  - by rewrite app_nil_r.
  - by destruct (waitQuit ctx s') as [[[]|] ? ?].
  - done.
Qed.

End Laws.


Ltac norm :=
  cbv beta iota delta [mret M_ret non_nil result final trace] in *;
  rewrite ?app_nil_r in *.


Ltac refute_elem_of H :=
  repeat (apply elem_of_cons in H as [H|H]; [discriminate H|]);
  by apply elem_of_nil in H.

Section Claims.
Context {K : Collaborators}.

(** ** Splitting traces *)

Lemma split_at_quiet (p : Call → bool) rest :
  (∀ c, p c = true → starts c ≠ None) →
  omap starts rest = [] → split_at p rest = None.
Proof.
  intros Hp. induction rest as [|c rest IH]; [done|].
  cbn [omap list_omap]. intros Hq. cbn [split_at].
  destruct (p c) eqn:Hc.
  - apply Hp in Hc. by destruct (starts c).
  - destruct (starts c); [done|]. by rewrite IH.
Qed.

Lemma split_at_app_quiet (p : Call → bool) l rest :
  (∀ c, p c = true → starts c ≠ None) →
  omap starts rest = [] →
  split_at p (l ++ rest) =
    match split_at p l with
    | Some (pre, post) => Some (pre, post ++ rest)
    | None => None
    end.
Proof.
  intros Hp Hq. induction l as [|c l IH]; cbn [app split_at].
  - by apply split_at_quiet.
  - destruct (p c); [done|]. rewrite IH. by destruct (split_at p l) as [[]|].
Qed.

(** The trace of [Run] is that of [initPlugin] and of the startup steps,
    followed by calls that belong to no startup step. *)
Lemma Run_trace_app ctx s :
  ∃ rest,
    trace (Run ctx s) =
      (trace (initPlugin s) ++ trace (startup steps s)) ++ rest ∧
    omap starts rest = [].
Proof.
  pose proof (Run_cases ctx s) as Hrun. cbv zeta in Hrun.
  destruct (result (startup steps s)) as [[c|]|]; rewrite Hrun; cbn [trace].
  - exists []. by rewrite app_nil_r.
  - exists (trace (waitQuit ctx (final (startup steps s)))).
    by rewrite app_assoc, waitQuit_trace_not_startup.
  - exists []. by rewrite app_nil_r.
Qed.

Lemma Run_starts ctx s :
  omap starts (trace (Run ctx s)) = omap starts (trace (startup steps s)).
Proof.
  pose proof (Run_cases ctx s) as Hrun. cbv zeta in Hrun.
  destruct (result (startup steps s)) as [[c|]|]; rewrite Hrun; cbn [trace];
    rewrite ?omap_app, ?waitQuit_trace_not_startup, ?app_nil_r; done.
Qed.

Lemma startup_cons c (m : M (option error)) l s :
  startup ((c, m) :: l) s =
    match m s with
    | mkOut None s' t => mkOut None s' t
    | mkOut (Some (Some _)) s' t => mkOut (Some (Some c)) s' t
    | mkOut (Some None) s' t =>
        match startup l s' with
        | mkOut r s'' t' => mkOut r s'' (t ++ t')
        end
    end.
Proof.
  cbn [startup]. rewrite bind_eq.
  destruct (m s) as [[[e|]|] s' t]; cbn; rewrite ?app_nil_r; done.
Qed.






(** C1 (amended).  When a startup step returns an error, [Run] returns at
    once: it makes no call of a later startup step, never enters [waitQuit],
    and does not call [Stop].  The components brought up by the earlier
    steps stay as those steps left them. *)
Theorem Run_aborts_on_startup_error ctx s c :
  result (startup steps s) = Some (Some c) →
  Run ctx s =
    mkOut (Some ()) (final (startup steps s))
      (trace (initPlugin s) ++ trace (startup steps s)) ∧
  order_of starts (trace (Run ctx s)) = through c ∧
  Forall (λ x, is_Stop_call x = false ∧ is_waitQuit_call x = false)
    (trace (Run ctx s)) ∧
  (∀ c', c' ∈ through c → c' ≠ c → holds (final (Run ctx s)) c' = true).
Proof.
  intros Hfail.
  pose proof (Run_cases ctx s) as Hrun. cbv zeta in Hrun.
  rewrite Hfail in Hrun. rewrite Hrun. cbn [trace final].
  split; [done|]. clear Hrun. revert Hfail. rewrite initPlugin_spec.
  exec; intros [= <-];
    (split; [reflexivity|split; [by repeat constructor|]]);
    intros c' Hin Hne; vm_compute in Hin;
    repeat (apply elem_of_cons in Hin as [->|Hin]; [done|]);
    by apply elem_of_nil in Hin.
Qed.

(** C3 (amended).  The server registers itself as the membership event
    handler inside the Membership Adapter's own startup step: the call comes
    right after [serf.Create] and right before the agent's [Start].  Before
    it only the Local State Store and the Membership Adapter have been
    touched; the Transport Server, the Registry Bridge and the timer are
    brought up after it. *)
Theorem handler_registered_in_runSerf ctx s pre post :
  split_at is_RegisterEventHandler (trace (Run ctx s)) = Some (pre, post) →
  order_of starts pre = [LocalStateStore; MembershipAdapter] ∧
  c_etcd_Run ∈ pre ∧
  last pre = Some c_serf_Create ∧
  head post = Some c_serf_Start.
Proof.
  destruct (Run_trace_app ctx s) as (rest & -> & Hrest).
  rewrite split_at_app_quiet; [|by intros [] | done].
  clear Hrest. revert pre post. rewrite initPlugin_spec.
  exec; intros pre post Hsplit; vm_compute in Hsplit;
    (discriminate Hsplit ||
     (injection Hsplit as <- <-;
      split; [reflexivity|split; [|split; reflexivity]];
      repeat first [ apply list_elem_of_here | apply list_elem_of_further ])).
Qed.

(** The server that a startup without error leaves holds every component
    that [Stop] releases. *)
Lemma startup_holds_all s :
  result (startup steps s) = Some None →
  ∀ c, c ≠ RegistryBridge → holds (final (startup steps s)) c = true.
Proof.
  exec; intros [=]; intros []; done.
Qed.

(** C4 (amended).  [Stop] releases the resources in the fixed order: stop the
    timer, deregister the event handler, leave the gossip cluster, shut down
    the Membership Adapter, stop the Transport Server, stop the Local State
    Store; it then closes the goroutine pool.  The steps of the components
    the server holds are all made, in this order, and the steps of a
    component it does not hold are left out; after a startup without error
    the whole sequence runs. *)
Theorem Stop_release_order s :
  trace (Stop s) =
    filter (λ c, from_option (holds s) false (stops c)) stop_sequence
      ++ [c_gopool_CloseAndWait] ∧
  (result (startup steps s) = Some None →
   trace (Stop (final (startup steps s))) =
     stop_sequence ++ [c_gopool_CloseAndWait]).
Proof.
  split; [by rewrite Stop_spec|].
  intros Hok. rewrite Stop_spec. cbn [trace].
  pose proof (startup_holds_all s Hok) as Hall.
  unfold stop_sequence, filter, list_filter. cbn -[holds].
  by rewrite !Hall.
Qed.


(** C8.  [createLogFile] never returns the nil writer.  It returns
    [os.Stderr] for the empty path and when [utils.OpenFile] returns an
    error, and the opened file otherwise; the server is left untouched. *)
Theorem createLogFile_not_nil logFile s :
  ∃ fw,
    result (createLogFile logFile s) = Some fw ∧
    final (createLogFile logFile s) = s ∧
    fw ≠ nil_Writer ∧
    (logFile = "" → fw = os_Stderr) ∧
    (∀ f e, utils_OpenFile logFile = (f, Some e) → fw = os_Stderr) ∧
    (logFile ≠ "" → ∀ f, utils_OpenFile logFile = (f, None) →
       fw = file_Writer f).
Proof.
  unfold createLogFile. case_bool_decide as Hempty.
  - exists os_Stderr. repeat split; try done.
  - destruct (utils_OpenFile logFile) as [f [e|]] eqn:Hopen.
    + exists os_Stderr. repeat split; try done.
    + exists (file_Writer f). repeat split; try done.
      intros _ f' [= ->]. done.
Qed.

(** With the agent created and started, a failing join makes the startup
    stop at the Membership Adapter. *)
Lemma startup_join_failure s fw a a' a'' e :
  result (createLogFile (LogFile (conf s)) s) = Some fw →
  serf_Create (SerfConf (conf s)) fw = (Some a, None) →
  serf_Start (serf_RegisterEventHandler a) = (a', None) →
  JoinAddr (conf s) ≠ "" →
  serf_Join a' [JoinAddr (conf s)] false = (a'', Some e) →
  ∃ c, result (startup steps s) = Some (Some c) ∧
       order_of starts (trace (startup steps s))
         `prefix_of` [LocalStateStore; MembershipAdapter] ∧
       Forall (λ x, is_waitQuit_call x = false)
         (trace (initPlugin s) ++ trace (startup steps s)).
Proof.
  rewrite initPlugin_spec. destruct s as [c t sc et ag g]. cbn [conf].
  exec; intros; simplify_eq; try congruence;
    (eexists; split; [reflexivity|split;
       [vm_compute; eexists; reflexivity|by repeat constructor]]).
Qed.

(** C6.  With the serf agent created and started: for an empty join address
    [runSerf] attempts no join and returns nil; for a non-empty join address
    whose join fails it returns that error, and [Run] then goes no further
    than the Membership Adapter: it makes no call of the later startup steps
    and does not enter [waitQuit]. *)
Theorem runSerf_join ctx s fw a a' :
  result (createLogFile (LogFile (conf s)) s) = Some fw →
  serf_Create (SerfConf (conf s)) fw = (Some a, None) →
  serf_Start (serf_RegisterEventHandler a) = (a', None) →
  (JoinAddr (conf s) = "" →
     result (runSerf s) = Some None ∧
     split_at is_serf_Join (trace (runSerf s)) = None) ∧
  (JoinAddr (conf s) ≠ "" → ∀ a'' e,
     serf_Join a' [JoinAddr (conf s)] false = (a'', Some e) →
     result (runSerf s) = Some (Some e) ∧
     c_serf_Join [JoinAddr (conf s)] ∈ trace (runSerf s) ∧
     order_of starts (trace (Run ctx s))
       `prefix_of` [LocalStateStore; MembershipAdapter] ∧
     Forall (λ x, is_waitQuit_call x = false) (trace (Run ctx s))).
Proof.
  intros Hfw Hcreate Hstart. split.
  - revert Hfw Hcreate Hstart. destruct s as [c t sc et ag g]. cbn [conf].
    exec; intros; simplify_eq; try congruence; split; reflexivity.
  - intros Hjoin a'' e Hfail.
    destruct (startup_join_failure s fw a a' a'' e) as (c & Hc & Hpre & Hnw);
      [done..|].
    split; [|split; [|split]].
    + revert Hfw Hcreate Hstart Hjoin Hfail. clear.
      destruct s as [c t sc et ag g]. cbn [conf].
      exec; intros; simplify_eq; congruence.
    + revert Hfw Hcreate Hstart Hjoin Hfail. clear.
      destruct s as [c t sc et ag g]. cbn [conf].
      exec; intros; simplify_eq; try congruence;
        repeat first [ apply list_elem_of_here | apply list_elem_of_further ].
    + unfold order_of. by rewrite Run_starts.
    + pose proof (Run_cases ctx s) as Hrun. cbv zeta in Hrun.
      rewrite Hc in Hrun. by rewrite Hrun.
Qed.

Lemma startup_ok_cons c (m : M (option error)) l s :
  result (m s) = Some None →
  startup ((c, m) :: l) s =
    mkOut (result (startup l (final (m s))))
      (final (startup l (final (m s))))
      (trace (m s) ++ trace (startup l (final (m s)))).
Proof.
  intros Hok. rewrite startup_cons.
  destruct (m s) as [r s' t]; cbn [result final trace] in *; subst r.
  by destruct (startup l s').
Qed.

Lemma runTicker_spec s :
  runTicker s =
    mkOut (Some None)
      {| conf := conf s;
         tick := Some (ticker_NewTaskTicker (TickerInterval (conf s)));
         servicecenter := servicecenter s; etcd := etcd s;
         agent := agent s; grpc := grpc s |}
      [c_ticker_NewTaskTicker (TickerInterval (conf s));
       c_gopool_Go_tick_Start].
Proof. reflexivity. Qed.

(** C9.  [runTicker] returns nil on every server.  Hence, once [runEtcd],
    [runSerf], [runGrpc] and [createServiceCenter] have returned nil, [Run]
    starts the ticker and goes on to [waitQuit]: it ends as [waitQuit] ends,
    and its trace ends with the trace of [waitQuit]. *)
Theorem runTicker_returns_nil ctx s :
  let s1 := final (runEtcd s) in
  let s2 := final (runSerf s1) in
  let s3 := final (runGrpc s2) in
  let s4 := final (createServiceCenter s3) in
  let s5 := final (runTicker s4) in
  (∀ s', result (runTicker s') = Some None) ∧
  (result (runEtcd s) = Some None →
   result (runSerf s1) = Some None →
   result (runGrpc s2) = Some None →
   result (createServiceCenter s3) = Some None →
   result (Run ctx s) = result (waitQuit ctx s5) ∧
   final (Run ctx s) = final (waitQuit ctx s5) ∧
   ∃ pre, trace (Run ctx s) = pre ++ trace (waitQuit ctx s5) ∧
          last pre = Some c_gopool_Go_tick_Start).
Proof.
  intros s1 s2 s3 s4 s5. split; [intros s'; reflexivity|].
  intros H1 H2 H3 H4.
  pose proof (Run_cases ctx s) as Hrun. cbv zeta in Hrun.
  assert (startup steps s =
            mkOut (Some None) s5
              (trace (runEtcd s) ++ trace (runSerf s1) ++
               trace (runGrpc s2) ++ trace (createServiceCenter s3) ++
               [c_ticker_NewTaskTicker (TickerInterval (conf s4));
                c_gopool_Go_tick_Start])) as Hst.
  { unfold steps.
    rewrite (startup_ok_cons _ _ _ _ H1).
    rewrite (startup_ok_cons _ _ _ _ H2).
    rewrite (startup_ok_cons _ _ _ _ H3).
    rewrite (startup_ok_cons _ _ _ _ H4).
    rewrite startup_cons. subst s5. rewrite !runTicker_spec. reflexivity. }
  rewrite Hst in Hrun. cbn [result final trace] in Hrun.
  rewrite Hrun. cbn [result final trace].
  split; [done|split; [done|]].
  eexists. split; [apply app_assoc|].
  by rewrite !last_app.
Qed.

Lemma existsb_handled (installed arrivals : list Signal) :
  Exists (λ sig, sig ∈ installed) arrivals →
  existsb (λ sig, bool_decide (sig ∈ installed)) arrivals = true.
Proof.
  induction 1 as [sig rest Hin|sig rest Hex IH]; cbn [existsb].
  - by rewrite bool_decide_eq_true_2.
  - rewrite IH. apply orb_true_r.
Qed.

Lemma existsb_unhandled (installed arrivals : list Signal) :
  Forall (λ sig, sig ∉ installed) arrivals →
  existsb (λ sig, bool_decide (sig ∈ installed)) arrivals = false.
Proof.
  induction 1 as [|sig rest Hnin Hall IH]; cbn [existsb]; [done|].
  by rewrite bool_decide_eq_false_2.
Qed.

Lemma Stop_count_Stop s : Stop_count (trace (Stop s)) = 1%nat.
Proof.
  rewrite Stop_spec.
  destruct s as [c [t|] sc [e|] [a|] [g|]]; reflexivity.
Qed.

(** C7 (amended).  [waitQuit] passes exactly three signals to
    [syssig.AddSignalsHandler]: interrupt, kill and terminate.  The kill
    signal is passed as well, but it cannot be caught, so it is never
    delivered to a handler.  With the handler installed, [Stop] runs exactly
    once if an interrupt or a terminate signal is delivered, however many of
    them are, and [waitQuit] ends as that run of [Stop] ends; if neither is
    delivered, whatever else is, [Stop] does not run and the server is left
    as it was. *)
Theorem waitQuit_signals ctx s :
  syssig_AddSignalsHandler quit_signals = None →
  SIGKILL ∉ delivered ctx →
  (∀ sig, sig ∈ quit_signals ↔ sig = SIGINT ∨ sig = SIGKILL ∨ sig = SIGTERM) ∧
  head (trace (waitQuit ctx s)) =
    Some (c_syssig_AddSignalsHandler [SIGINT; SIGKILL; SIGTERM]) ∧
  (Exists (λ sig, sig = SIGINT ∨ sig = SIGTERM) (delivered ctx) →
     Stop_count (trace (waitQuit ctx s)) = 1%nat ∧
     trace (waitQuit ctx s) =
       [c_syssig_AddSignalsHandler quit_signals; c_syssig_Run]
         ++ trace (Stop s) ∧
     final (waitQuit ctx s) = final (Stop s)) ∧
  (Forall (λ sig, sig ≠ SIGINT ∧ sig ≠ SIGTERM) (delivered ctx) →
     Stop_count (trace (waitQuit ctx s)) = 0%nat ∧
     waitQuit ctx s =
       mkOut (Some ()) s
         [c_syssig_AddSignalsHandler quit_signals; c_syssig_Run]).
Proof.
  intros Hinst Hkill. rewrite waitQuit_spec, Hinst.
  assert (∀ sig, sig ∈ quit_signals
                 ↔ sig = SIGINT ∨ sig = SIGKILL ∨ sig = SIGTERM) as Hset.
  { intros sig. unfold quit_signals. rewrite !elem_of_cons, elem_of_nil.
    split; [intros [->|[->|[->|[]]]]; auto|intros [->|[->| ->]]; auto]. }
  split; [exact Hset|]. split; [by destruct (existsb _ _)|]. split.
  - intros Hex.
    assert (Exists (λ sig, sig ∈ quit_signals) (delivered ctx)) as Hex'.
    { eapply Exists_impl; [exact Hex|]. intros sig Hsig. apply Hset.
      destruct Hsig; auto. }
    rewrite (existsb_handled _ _ Hex'). cbn [trace final].
    split; [|by rewrite Stop_spec].
    pose proof (Stop_count_Stop s) as Hcount. unfold Stop_count in *.
    cbn [app]. by rewrite !filter_cons_False.
  - intros Hall.
    assert (Forall (λ sig, sig ∉ quit_signals) (delivered ctx)) as Hall'.
    { rewrite Forall_forall in Hall. apply Forall_forall.
      intros sig Hin [->|[->| ->]]%Hset.
      - by destruct (Hall _ Hin).
      - done.
      - by destruct (Hall _ Hin). }
    by rewrite (existsb_unhandled _ _ Hall').
Qed.

End Claims.

(** ** Server information *)

Section ProtoClaims.
Context {Value : Type}.

(** C10.  [NewServerInformation] returns a value whose [Version] is the
    empty string and whose [Config.Plugins] is a map that is not nil and has
    no entry; storing an entry in it does not panic and yields the map with
    that one entry. *)
Theorem NewServerInformation_Plugins :
  let info := @NewServerInformation Value in
  Version info = "" ∧
  Plugins (Config info) ≠ None ∧
  Plugins (Config info) = Some ∅ ∧
  JSONObject_len (Plugins (Config info)) = 0%nat ∧
  ∀ k v, JSONObject_store (Plugins (Config info)) k v = Some (Some {[k := v]}).
Proof.
  cbn. repeat split; try done.
Qed.

End ProtoClaims.

(** ** The claims on concrete runs *)

(** C1, as stated, fails.  The Local State Store starts, creating the serf
    agent fails, and [Run] returns: the store is still running and neither
    its [Stop] nor any other call of [Server.Stop] was made. *)
Lemma Run_failure_does_not_Stop :
  let K := sim serf_Create_fails in
  let s := NewServer sample_conf in
  let o := Run two_signals s in
  result (startup steps s) = Some (Some MembershipAdapter) ∧
  trace o =
    [c_plugins_SetPluginConfig "servicecenter" ""; c_plugins_LoadPlugins;
     c_etcd_NewAgent; c_etcd_Run; c_serf_Create;
     c_log_Errorf "Create serf failed, %s"] ∧
  etcd (final o) = Some Running ∧
  (c_etcd_Stop ∉ trace o) ∧
  Stop_count (trace o) = 0%nat.
Proof.
  cbv zeta. repeat split; try (vm_compute; reflexivity).
  intros Hin. vm_compute in Hin. refute_elem_of Hin.
Qed.

Lemma Run_aborts_on_startup_error_witness :
  let K := sim serf_Create_fails in
  let s := NewServer sample_conf in
  result (startup steps s) = Some (Some MembershipAdapter) ∧
  order_of starts (trace (Run two_signals s)) = through MembershipAdapter.
Proof.
  cbv zeta. split; [vm_compute; reflexivity|].
  apply (Run_aborts_on_startup_error (K := sim serf_Create_fails)
           two_signals (NewServer sample_conf) MembershipAdapter).
  vm_compute; reflexivity.
Defined.


(** C3, as stated, fails.  In a run in which every step succeeds the handler
    is registered before the Transport Server and the Registry Bridge are
    brought up: their calls come after the registration. *)
Lemma handler_registered_before_grpc :
  let K := sim no_faults in
  let s := NewServer sample_conf in
  split_at is_RegisterEventHandler (trace (Run two_signals s)) =
    Some ([c_plugins_SetPluginConfig "servicecenter" "";
           c_plugins_LoadPlugins; c_etcd_NewAgent; c_etcd_Run; c_serf_Create],
          [c_serf_Start; c_serf_Join ["10.0.0.2:30190"];
           c_grpc_NewServer "0.0.0.0:30196"; c_grpc_Run; c_etcd_Storage;
           c_servicecenter_NewServicecenter
             ["127.0.0.1:30100"; "127.0.0.1:30101"];
           c_ticker_NewTaskTicker 30; c_gopool_Go_tick_Start;
           c_syssig_AddSignalsHandler [SIGINT; SIGKILL; SIGTERM];
           c_syssig_Run; c_ticker_Stop; c_serf_DeregisterEventHandler;
           c_serf_Leave; c_serf_Shutdown; c_grpc_Stop; c_etcd_Stop;
           c_gopool_CloseAndWait]).
Proof. vm_compute. reflexivity. Qed.

Lemma handler_registered_in_runSerf_witness :
  let K := sim no_faults in
  let s := NewServer sample_conf in
  ∃ pre post,
    split_at is_RegisterEventHandler (trace (Run two_signals s)) =
      Some (pre, post) ∧
    last pre = Some c_serf_Create ∧ head post = Some c_serf_Start.
Proof.
  cbv zeta.
  pose proof (handler_registered_in_runSerf (K := sim no_faults)
                two_signals (NewServer sample_conf)) as Hreg.
  eexists _, _. split; [vm_compute; reflexivity|].
  eapply Hreg. vm_compute; reflexivity.
Defined.

(** C4, as stated, fails.  After a startup without error the components were
    brought up in the order store, membership, transport, bridge, timer;
    [Stop] releases timer, membership, transport, store, which is not the
    reverse of the startup order: the Membership Adapter is started before
    the Transport Server and is also shut down before it. *)
Lemma Stop_order_not_reverse_of_startup :
  let K := sim no_faults in
  let s := NewServer sample_conf in
  let started := order_of starts (trace (startup steps s)) in
  let released := order_of stops (trace (Stop (final (startup steps s)))) in
  result (startup steps s) = Some None ∧
  started = [LocalStateStore; MembershipAdapter; TransportServer;
             RegistryBridge; Timer] ∧
  released = [Timer; MembershipAdapter; TransportServer; LocalStateStore] ∧
  filter (λ c, c ∈ released) (reverse started) =
    [Timer; TransportServer; MembershipAdapter; LocalStateStore] ∧
  released ≠ filter (λ c, c ∈ released) (reverse started).
Proof.
  cbv zeta. repeat split; try (vm_compute; reflexivity).
  intros Heq. vm_compute in Heq. discriminate Heq.
Qed.

Lemma Stop_release_order_witness :
  let K := sim no_faults in
  let s := NewServer sample_conf in
  result (startup steps s) = Some None ∧
  trace (Stop (final (startup steps s))) =
    stop_sequence ++ [c_gopool_CloseAndWait].
Proof.
  cbv zeta. split; [vm_compute; reflexivity|].
  apply (Stop_release_order (K := sim no_faults) (NewServer sample_conf)).
  vm_compute; reflexivity.
Defined.



Lemma runSerf_join_witness :
  (let K := sim no_faults in
   result (runSerf (NewServer first_node_conf)) = Some None) ∧
  (let K := sim serf_Join_fails in
   result (runSerf (NewServer sample_conf)) = Some (Some "join")).
Proof.
  cbv zeta. split.
  - eapply (runSerf_join (K := sim no_faults) two_signals
              (NewServer first_node_conf)); reflexivity.
  - eapply (runSerf_join (K := sim serf_Join_fails) two_signals
              (NewServer sample_conf)); try reflexivity.
    discriminate.
Defined.

Lemma createLogFile_not_nil_witness :
  let K := sim no_faults in
  result (createLogFile "/var/log/syncer.log" (NewServer first_node_conf)) =
    Some (file_Writer (Some "/var/log/syncer.log")).
Proof.
  cbv zeta.
  destruct (createLogFile_not_nil (K := sim no_faults) "/var/log/syncer.log"
              (NewServer first_node_conf))
    as (fw & Hres & _ & _ & _ & _ & Hfile).
  rewrite Hres. f_equal. by apply Hfile.
Defined.

(** C7, as stated, fails.  The kill signal is neither the interrupt nor the
    terminate signal, and [waitQuit] passes it to
    [syssig.AddSignalsHandler] together with them. *)
Lemma quit_signals_include_SIGKILL :
  let K := sim no_faults in
  let s := final (startup steps (NewServer sample_conf)) in
  SIGKILL ∈ quit_signals ∧ SIGKILL ≠ SIGINT ∧ SIGKILL ≠ SIGTERM ∧
  ¬ (∀ sig, sig ∈ quit_signals → sig = SIGINT ∨ sig = SIGTERM) ∧
  head (trace (waitQuit two_signals s)) =
    Some (c_syssig_AddSignalsHandler [SIGINT; SIGKILL; SIGTERM]).
Proof.
  cbv zeta. split; [|split; [done|split; [done|split]]].
  - unfold quit_signals. apply list_elem_of_further, list_elem_of_here.
  - intros Hall. destruct (Hall SIGKILL) as [Heq|Heq]; [|done..].
    unfold quit_signals. apply list_elem_of_further, list_elem_of_here.
  - vm_compute. reflexivity.
Qed.

Lemma waitQuit_signals_witness :
  let K := sim no_faults in
  let s := final (startup steps (NewServer sample_conf)) in
  syssig_AddSignalsHandler quit_signals = None ∧
  (SIGKILL ∉ delivered two_signals) ∧
  Stop_count (trace (waitQuit two_signals s)) = 1%nat.
Proof.
  cbv zeta.
  assert (@syssig_AddSignalsHandler (sim no_faults) quit_signals = None)
    as Hinst by (vm_compute; reflexivity).
  assert (SIGKILL ∉ delivered two_signals) as Hkill.
  { intros Hin. cbn in Hin. refute_elem_of Hin. }
  split; [exact Hinst|]. split; [exact Hkill|].
  pose proof (waitQuit_signals (K := sim no_faults) two_signals
                (final (startup steps (NewServer sample_conf))) Hinst Hkill)
    as (_ & _ & Hhandled & _).
  apply Hhandled. apply Exists_cons_hd. by right.
Defined.

Lemma runTicker_returns_nil_witness :
  let K := sim no_faults in
  let s := NewServer sample_conf in
  result (Run {| delivered := [] |} s) = Some ().
Proof.
  cbv zeta.
  pose proof (runTicker_returns_nil (K := sim no_faults)
                {| delivered := [] |} (NewServer sample_conf)) as Hrun.
  cbv zeta in Hrun. destruct Hrun as [_ Hrun].
  destruct Hrun as [Hres _]; [reflexivity..|].
  rewrite Hres. reflexivity.
Defined.

(** * Further properties of the lifecycle *)

Section More.
Context {K : Collaborators}.

Lemma Stop_count_quiet tr :
  Forall (λ x, is_Stop_call x = false) tr → Stop_count tr = 0%nat.
Proof.
  unfold Stop_count. induction 1 as [|x tr Hx Hall IH]; [done|].
  rewrite filter_cons_False; [done|]. by intros ->.
Qed.

Lemma startup_no_Stop_call s :
  Forall (λ x, is_Stop_call x = false ∧ is_plugins_call x = false
               ∧ is_waitQuit_call x = false)
    (trace (startup steps s)).
Proof. exec; by repeat constructor. Qed.

Lemma waitQuit_no_plugins_call ctx s :
  Forall (λ x, is_plugins_call x = false) (trace (waitQuit ctx s)).
Proof.
  rewrite waitQuit_spec.
  destruct (syssig_AddSignalsHandler quit_signals); [by repeat constructor|].
  destruct (existsb _ _); [|by repeat constructor].
  rewrite Stop_spec.
  destruct s as [c [t|] sc [e|] [a|] [g|]]; by repeat constructor.
Qed.

(** X1.  On a server with a configuration, the only method call through a
    nil field that [Run] can make is the [RegisterEventHandler] that follows
    a [serf.Create] which returned a nil agent together with a nil error:
    [Run] makes such a call exactly when the store has started and
    [serf.Create] returns that pair, and [serf.Create] is then the last call
    made.  In particular the store is assigned before
    [createServiceCenter] asks it for its storage, and the transport server
    and the ticker before their methods are called. *)
Theorem Run_nil_field_call ctx s :
  (result (Run ctx s) = None ↔
     (etcd_Run etcd_NewAgent).2 = None ∧
     ∃ fw, result (createLogFile (LogFile (conf s)) s) = Some fw ∧
           serf_Create (SerfConf (conf s)) fw = (None, None)) ∧
  (result (Run ctx s) = None → last (trace (Run ctx s)) = Some c_serf_Create).
Proof.
  assert (result (Run ctx s) = None ↔ result (startup steps s) = None)
    as Hres.
  { pose proof (Run_cases ctx s) as Hrun. cbv zeta in Hrun.
    destruct (result (startup steps s)) as [[c|]|]; rewrite Hrun;
      cbn [result]; try done.
    rewrite waitQuit_spec.
    destruct (syssig_AddSignalsHandler quit_signals); [done|].
    by destruct (existsb _ _). }
  split.
  - rewrite Hres. clear Hres. destruct s as [c t svc et ag g]. cbn [conf].
    exec; (split;
      [ intros Hnone; try discriminate Hnone;
        (split; [reflexivity|eexists; split; [reflexivity|assumption]])
      | intros (Hetcd & fw & Hfw & Hcreate); simplify_eq; congruence ]).
  - intros Hnone. apply Hres in Hnone.
    pose proof (Run_cases ctx s) as Hrun. cbv zeta in Hrun.
    rewrite Hnone in Hrun. rewrite Hrun. cbn [trace]. clear Hrun Hres.
    rewrite initPlugin_spec. cbn [trace]. revert Hnone.
    exec; intros Hnone; try discriminate Hnone; reflexivity.
Qed.

(** X2.  [Run] sets the plugin configuration and loads the plugins before
    anything else, whatever happens afterwards, and does so once. *)
Theorem Run_loads_plugins_first ctx s :
  ∃ rest,
    trace (Run ctx s) =
      c_plugins_SetPluginConfig plugins_PluginServicecenter
        (ServicecenterPlugin (conf s))
      :: c_plugins_LoadPlugins :: rest ∧
    Forall (λ x, is_plugins_call x = false) rest.
Proof.
  pose proof (Run_cases ctx s) as Hrun. cbv zeta in Hrun.
  pose proof (startup_no_Stop_call s) as Hst.
  assert (Forall (λ x, is_plugins_call x = false) (trace (startup steps s)))
    as Hst' by (eapply Forall_impl; [exact Hst|]; by intros x (_ & ? & _)).
  rewrite initPlugin_spec in Hrun. cbn [trace app] in Hrun.
  destruct (result (startup steps s)) as [[c|]|]; rewrite Hrun; cbn [trace];
    eexists; (split; [reflexivity|]); try done.
  apply Forall_app. split; [done|]. apply waitQuit_no_plugins_call.
Qed.

(** X3.  A failed startup never goes unreported: when a startup step returns an
    error, the last thing [Run] does before it returns is to log that error
    with a message of the failed step; when no step fails, none of these
    messages is logged. *)
Theorem Run_failure_is_logged ctx s :
  (∀ c, result (startup steps s) = Some (Some c) →
     ∃ format, format ∈ failure_formats c ∧
               last (trace (Run ctx s)) = Some (c_log_Errorf format)) ∧
  (result (startup steps s) = Some None →
     ∀ c format, format ∈ failure_formats c →
       c_log_Errorf format ∉ trace (startup steps s)).
Proof.
  split.
  - intros c Hfail.
    pose proof (Run_cases ctx s) as Hrun. cbv zeta in Hrun.
    rewrite Hfail in Hrun. rewrite Hrun. cbn [trace]. clear Hrun.
    rewrite initPlugin_spec. cbn [trace]. revert Hfail.
    exec; intros [= <-]; eexists; (split; [|reflexivity]);
      repeat first [ apply list_elem_of_here | apply list_elem_of_further ].
  - exec; intros [=]; intros c format Hfmt Hin;
      destruct c; vm_compute in Hfmt;
      repeat (apply elem_of_cons in Hfmt as [->|Hfmt]; [refute_elem_of Hin|]);
      by apply elem_of_nil in Hfmt.
Qed.

(** X4.  When the signal handler cannot be installed after a startup without
    error, [Run] logs this and returns without waiting for a signal: [Stop]
    is not called, whatever signals are delivered, and the server still
    holds the store, the agent, the transport server and the ticker, all
    started. *)
Theorem Run_handler_install_failure ctx s e :
  result (startup steps s) = Some None →
  syssig_AddSignalsHandler quit_signals = Some e →
  result (Run ctx s) = Some () ∧
  final (Run ctx s) = final (startup steps s) ∧
  last (trace (Run ctx s)) =
    Some (c_log_Errorf "Syncer add signals handler failed") ∧
  (c_syssig_Run ∉ trace (Run ctx s)) ∧
  Stop_count (trace (Run ctx s)) = 0%nat ∧
  (∀ c, c ≠ RegistryBridge → holds (final (Run ctx s)) c = true).
Proof.
  intros Hok Hinst.
  pose proof (Run_cases ctx s) as Hrun. cbv zeta in Hrun.
  rewrite Hok in Hrun. rewrite waitQuit_spec, Hinst in Hrun.
  cbn [result final trace] in Hrun. rewrite Hrun. cbn [result final trace].
  pose proof (startup_no_Stop_call s) as Hst.
  split; [done|split; [done|split; [|split; [|split]]]].
  - by rewrite !last_app.
  - rewrite initPlugin_spec. cbn [trace].
    rewrite !elem_of_app, !elem_of_cons, elem_of_nil.
    intros [[?|[?|[]]]|[Hin|[?|[?|[]]]]]; try done.
    rewrite Forall_forall in Hst. by destruct (Hst _ Hin) as (_ & _ & ?).
  - apply Stop_count_quiet. rewrite initPlugin_spec. cbn [trace].
    repeat (apply Forall_app; split); try by repeat constructor.
    eapply Forall_impl; [exact Hst|]. by intros x (? & _).
  - by apply startup_holds_all.
Qed.

End More.

Ltac solve_elem :=
  solve [repeat first [ apply list_elem_of_here | apply list_elem_of_further ]].

Section More2.
Context {K : Collaborators}.

Lemma Stop_trace s :
  trace (Stop s) =
    (if non_nil (tick s) then [c_ticker_Stop] else []) ++
    (if non_nil (agent s)
     then [c_serf_DeregisterEventHandler; c_serf_Leave; c_serf_Shutdown]
     else []) ++
    (if non_nil (grpc s) then [c_grpc_Stop] else []) ++
    (if non_nil (etcd s) then [c_etcd_Stop] else []) ++
    [c_gopool_CloseAndWait].
Proof. destruct s as [c [t|] sc [e|] [a|] [g|]]; reflexivity. Qed.

(** What a fresh server holds when its startup has failed at [c]. *)
Lemma aborted_startup_fields cfg c :
  result (startup steps (NewServer cfg)) = Some (Some c) →
  let s' := final (startup steps (NewServer cfg)) in
  tick s' = None ∧ non_nil (etcd s') = true ∧
  non_nil (grpc s') =
    bool_decide (c = TransportServer ∨ c = RegistryBridge) ∧
  (c = TransportServer ∨ c = RegistryBridge → non_nil (agent s') = true).
Proof.
  unfold NewServer. exec; intros [= <-]; repeat split; try done;
    intros [?|?]; done.
Qed.

(** X5.  [Stop] after a failed startup of a fresh server.  The store is released
    in every case, also when it is the store itself that failed to run; the
    transport server is released exactly when startup got as far as its
    step, also when its own [Run] failed; the serf agent is released exactly
    when the server holds one, which is the case whenever startup got past
    the Membership Adapter; the timer, which was never created, is not
    stopped. *)
Theorem Stop_after_aborted_Run ctx cfg c :
  let s := NewServer cfg in
  result (startup steps s) = Some (Some c) →
  let tr := trace (Stop (final (Run ctx s))) in
  c_etcd_Stop ∈ tr ∧
  (c_grpc_Stop ∈ tr ↔ c = TransportServer ∨ c = RegistryBridge) ∧
  (c_serf_Shutdown ∈ tr ↔ agent (final (Run ctx s)) ≠ None) ∧
  (c = TransportServer ∨ c = RegistryBridge → c_serf_Shutdown ∈ tr) ∧
  (c_ticker_Stop ∉ tr).
Proof.
  intros s Hfail.
  pose proof (Run_cases ctx s) as Hrun. cbv zeta in Hrun.
  rewrite Hfail in Hrun. rewrite Hrun. cbn [final]. clear Hrun.
  destruct (aborted_startup_fields cfg c Hfail) as (Ht & He & Hg & Ha).
  fold s in Ht, He, Hg, Ha. rewrite Stop_trace, Ht, He, Hg. cbn [non_nil app].
  clear Ht He Hg.
  case_bool_decide as Hc;
    destruct (agent (final (startup steps s))) as [a|]; cbn [non_nil app] in *;
    try (by specialize (Ha Hc));
    (split; [solve_elem|split; [|split; [|split]]]);
    try (intros Hin; refute_elem_of Hin);
    try (split; [intros Hin; first [refute_elem_of Hin | done]
                |intros Hh; first [solve_elem | done]]);
    intros Hh; first [solve_elem | done].
Qed.

(** X6.  A log file that cannot be opened does not stop the Membership Adapter
    from starting: after the attempt and the logged failure, [runSerf] goes
    on exactly as it does when no log file is configured. *)
Theorem runSerf_open_failure s f e :
  LogFile (conf s) ≠ "" →
  utils_OpenFile (LogFile (conf s)) = (f, Some e) →
  let s0 := with_conf s (without_LogFile (conf s)) in
  result (runSerf s) = result (runSerf s0) ∧
  agent (final (runSerf s)) = agent (final (runSerf s0)) ∧
  trace (runSerf s) =
    c_utils_OpenFile (LogFile (conf s))
    :: c_log_Errorf "Syncer open log file %s failed"
    :: trace (runSerf s0).
Proof.
  destruct s as [[sc lf ja ra sa ti pl] t svc et ag g].
  cbv zeta. unfold with_conf, without_LogFile.
  cbn [conf LogFile SerfConf JoinAddr RPCAddr SCAddr TickerInterval
       ServicecenterPlugin tick servicecenter etcd agent grpc].
  intros Hlf Hopen. unfold_M.
  cbn [LogFile SerfConf JoinAddr].
  rewrite (bool_decide_eq_false_2 _ Hlf), Hopen.
  rewrite (bool_decide_eq_true_2 ("" = "")) by done.
  exec; done.
Qed.

(** X7.  The calls [runSerf] makes into the serf package come in the order
    create, register the handler, start, join, and stop at the first
    failure: [Create] is always called; when it returns an error it is the
    only call, and when [Start] returns an error no join follows, and in
    both cases [runSerf] returns that error; the join is attempted only for
    a non-empty join address; a nil result means that create, register and
    start were all made and that a join, if attempted, came last. *)
Theorem runSerf_call_order s :
  let calls := filter (λ x, is_serf_call x = true) (trace (runSerf s)) in
  calls `prefix_of`
    [c_serf_Create; c_serf_RegisterEventHandler; c_serf_Start;
     c_serf_Join [JoinAddr (conf s)]] ∧
  head calls = Some c_serf_Create ∧
  (JoinAddr (conf s) = "" → c_serf_Join [JoinAddr (conf s)] ∉ calls) ∧
  (result (runSerf s) = Some None →
     calls = [c_serf_Create; c_serf_RegisterEventHandler; c_serf_Start]
             ++ (if bool_decide (JoinAddr (conf s) ≠ "")
                 then [c_serf_Join [JoinAddr (conf s)]] else [])) ∧
  (∀ fw a err,
     result (createLogFile (LogFile (conf s)) s) = Some fw →
     serf_Create (SerfConf (conf s)) fw = (a, Some err) →
     calls = [c_serf_Create] ∧ result (runSerf s) = Some (Some err)) ∧
  (∀ fw a a' err,
     result (createLogFile (LogFile (conf s)) s) = Some fw →
     serf_Create (SerfConf (conf s)) fw = (Some a, None) →
     serf_Start (serf_RegisterEventHandler a) = (a', Some err) →
     calls = [c_serf_Create; c_serf_RegisterEventHandler; c_serf_Start] ∧
     result (runSerf s) = Some (Some err)).
Proof.
  destruct s as [c t svc et ag g]. cbn [conf]. cbv zeta.
  split; [|split; [|split; [|split; [|split]]]].
  - exec; cbn; eexists; reflexivity.
  - exec; reflexivity.
  - intros Hja. exec; try done; cbn; intros Hin; refute_elem_of Hin.
  - exec; intros [=]; reflexivity.
  - intros fw a err. exec; intros; simplify_eq; try congruence;
      split; first [reflexivity | congruence].
  - intros fw a a' err. exec; intros; simplify_eq; try congruence;
      split; first [reflexivity | congruence].
Qed.

(** X8.  What [Run] does depends on the configuration only, not on what the
    component fields held before: it makes the same calls and ends the same
    way as on a fresh server with that configuration, and after a startup
    without error it leaves the very same server. *)
Theorem Run_depends_on_conf_only ctx s :
  let s0 := NewServer (conf s) in
  result (Run ctx s) = result (Run ctx s0) ∧
  trace (Run ctx s) = trace (Run ctx s0) ∧
  (result (startup steps s) = Some None →
   final (Run ctx s) = final (Run ctx s0)).
Proof.
  cbv zeta.
  assert (result (startup steps s) = result (startup steps (NewServer (conf s)))
          ∧ trace (startup steps s) = trace (startup steps (NewServer (conf s)))
          ∧ (result (startup steps s) = Some None →
             final (startup steps s) =
               final (startup steps (NewServer (conf s))))) as (Hr & Ht & Hf).
  { destruct s as [c t svc et ag g]. unfold NewServer. cbn [conf].
    exec; repeat split; done. }
  pose proof (Run_cases ctx s) as Hrun. cbv zeta in Hrun.
  pose proof (Run_cases ctx (NewServer (conf s))) as Hrun0.
  cbv zeta in Hrun0. rewrite <- Hr, <- Ht in Hrun0.
  rewrite !initPlugin_spec in *. cbn [conf NewServer] in Hrun0.
  destruct (result (startup steps s)) as [[c|]|];
    rewrite Hrun, Hrun0; cbn [result final trace]; try done.
  rewrite <- Hf by done. done.
Qed.

(** X9.  A whole life of the server.  After a startup without error, with the
    signal handler installed and a handled signal delivered, [Run] returns
    having made the startup calls, then installed the handler and waited,
    then released every component once in the order of [Stop]: each
    component that was started is released after all of them were started,
    and the server ends with its components released. *)
Theorem Run_full_lifecycle ctx s :
  result (startup steps s) = Some None →
  syssig_AddSignalsHandler quit_signals = None →
  Exists (λ sig, sig ∈ quit_signals) (delivered ctx) →
  result (Run ctx s) = Some () ∧
  final (Run ctx s) = released (final (startup steps s)) ∧
  trace (Run ctx s) =
    trace (initPlugin s) ++ trace (startup steps s) ++
    [c_syssig_AddSignalsHandler quit_signals; c_syssig_Run] ++
    stop_sequence ++ [c_gopool_CloseAndWait].
Proof.
  intros Hok Hinst Hex.
  pose proof (Run_cases ctx s) as Hrun. cbv zeta in Hrun.
  rewrite Hok in Hrun.
  rewrite waitQuit_spec, Hinst, (existsb_handled _ _ Hex) in Hrun.
  cbn [result final trace] in Hrun. rewrite Hrun. cbn [result final trace].
  split; [done|split; [done|]].
  rewrite Stop_spec. cbn [trace].
  pose proof (startup_holds_all s Hok) as Hall.
  unfold stop_sequence, filter, list_filter. cbn -[holds app].
  by rewrite !Hall.
Qed.

End More2.

(** ** The address list of the Registry Bridge *)

Lemma strings_Split_not_nil s sep : strings_Split s sep ≠ [].
Proof.
  destruct s as [|a s]; cbn [strings_Split]; [done|].
  destruct (Ascii.eqb a sep); [done|]. by destruct (strings_Split s sep).
Qed.

Lemma strings_Join_cons p q rest sep :
  strings_Join (p :: q :: rest) sep
  = p +:+ String sep (strings_Join (q :: rest) sep).
Proof. reflexivity. Qed.

Lemma strings_Join_Split s sep :
  strings_Join (strings_Split s sep) sep = s.
Proof.
  induction s as [|a s IH]; cbn [strings_Split]; [done|].
  pose proof (strings_Split_not_nil s sep) as Hne.
  destruct (Ascii.eqb a sep) eqn:Ha.
  - apply Ascii.eqb_eq in Ha as ->.
    destruct (strings_Split s sep) as [|q rest]; [done|].
    rewrite strings_Join_cons, IH. reflexivity.
  - destruct (strings_Split s sep) as [|q [|q' rest]]; [done|..].
    + cbn [strings_Join] in *. by rewrite IH.
    + rewrite strings_Join_cons. rewrite strings_Join_cons in IH.
      by rewrite <- IH.
Qed.

Lemma strings_Split_no_sep s sep p :
  p ∈ strings_Split s sep → strings_ContainsByte p sep = false.
Proof.
  revert p. induction s as [|a s IH]; intros p; cbn [strings_Split].
  - by intros ->%list_elem_of_singleton.
  - destruct (Ascii.eqb a sep) eqn:Ha.
    + intros [->|Hin]%elem_of_cons; [done|by apply IH].
    + destruct (strings_Split s sep) as [|q rest].
      * intros ->%list_elem_of_singleton. cbn. by rewrite Ha.
      * intros [->|Hin]%elem_of_cons.
        -- cbn. rewrite Ha. apply IH. apply list_elem_of_here.
        -- apply IH. by apply list_elem_of_further.
Qed.

Lemma strings_Split_length s sep :
  length (strings_Split s sep) = S (strings_CountByte s sep).
Proof.
  induction s as [|a s IH]; cbn [strings_Split strings_CountByte]; [done|].
  destruct (Ascii.eqb a sep); cbn [length]; [by rewrite IH|].
  pose proof (strings_Split_not_nil s sep).
  by destruct (strings_Split s sep).
Qed.

Lemma strings_Split_whole p sep :
  strings_ContainsByte p sep = false → strings_Split p sep = [p].
Proof.
  induction p as [|a p IH]; cbn [strings_ContainsByte strings_Split]; [done|].
  intros [Ha Hp]%orb_false_elim. rewrite Ha, (IH Hp). done.
Qed.

Lemma strings_Split_field p r sep :
  strings_ContainsByte p sep = false →
  strings_Split (p +:+ String sep r) sep = p :: strings_Split r sep.
Proof.
  induction p as [|a p IH]; cbn [strings_ContainsByte].
  - intros _. change (EmptyString +:+ String sep r) with (String sep r).
    cbn [strings_Split]. by rewrite Ascii.eqb_refl.
  - intros [Ha Hp]%orb_false_elim.
    change (String a p +:+ String sep r)
      with (String a (p +:+ String sep r)).
    cbn [strings_Split]. rewrite Ha, (IH Hp). done.
Qed.

(** Splitting at a byte and joining with it are inverse to each other:
    joining the fields of a string gives the string back, and splitting the
    join of a non-empty list of fields, none of which has the separator in
    it, gives these fields back. *)
Lemma strings_Split_Join_inverse sep :
  (∀ s, strings_Join (strings_Split s sep) sep = s) ∧
  (∀ parts, parts ≠ [] →
     Forall (λ p, strings_ContainsByte p sep = false) parts →
     strings_Split (strings_Join parts sep) sep = parts).
Proof.
  split; [intros s; apply strings_Join_Split|].
  intros parts Hne Hall. induction Hall as [|p rest Hp Hrest IH]; [done|].
  destruct rest as [|q rest].
  - cbn. by apply strings_Split_whole.
  - rewrite strings_Join_cons, strings_Split_field by done.
    by rewrite IH.
Qed.

Section Bridge.
Context {K : Collaborators}.

(** X10.  [createServiceCenter] hands [NewServicecenter] the comma-separated
    fields of [SCAddr]: always at least one address (for an empty [SCAddr]
    the one empty address), one more than there are commas, none with a
    comma in it, and joined by commas they spell [SCAddr] again. *)
Theorem createServiceCenter_addrs s e :
  etcd s = Some e →
  ∃ addrs pre post,
    trace (createServiceCenter s) =
      pre ++ c_servicecenter_NewServicecenter addrs :: post ∧
    Forall (λ x, starts x ≠ Some RegistryBridge ∨ x = c_etcd_Storage) pre ∧
    Forall (λ x, starts x = None) post ∧
    addrs ≠ [] ∧
    length addrs = S (strings_CountByte (SCAddr (conf s)) ",") ∧
    Forall (λ a, strings_ContainsByte a "," = false) addrs ∧
    strings_Join addrs "," = SCAddr (conf s) ∧
    (SCAddr (conf s) = "" → addrs = [""]).
Proof.
  intros He. exists (strings_Split (SCAddr (conf s)) ","), [c_etcd_Storage].
  destruct s as [c t svc et ag g]. cbn [etcd conf] in *. subst et.
  assert (∃ post,
            trace (createServiceCenter
                     {| conf := c; tick := t; servicecenter := svc;
                        etcd := Some e; agent := ag; grpc := g |}) =
              [c_etcd_Storage] ++
              c_servicecenter_NewServicecenter
                (strings_Split (SCAddr c) ",") :: post ∧
            Forall (λ x, starts x = None) post) as (post & -> & Hpost).
  { unfold createServiceCenter. unfold_M.
    destruct (servicecenter_NewServicecenter _ _) as [sc [err|]];
      eexists; (split; [reflexivity|]); by repeat constructor. }
  exists post. split; [done|]. split; [by repeat constructor|].
  split; [done|]. split; [apply strings_Split_not_nil|].
  split; [apply strings_Split_length|].
  split; [apply Forall_forall; intros a; apply strings_Split_no_sep|].
  split; [apply strings_Join_Split|]. by intros ->.
Qed.

End Bridge.

Section More3.
Context {K : Collaborators}.

Lemma Stop_count_app tr1 tr2 :
  Stop_count (tr1 ++ tr2) = (Stop_count tr1 + Stop_count tr2)%nat.
Proof. unfold Stop_count. by rewrite filter_app, length_app. Qed.

Lemma existsb_handled_inv (installed arrivals : list Signal) :
  existsb (λ sig, bool_decide (sig ∈ installed)) arrivals = true →
  Exists (λ sig, sig ∈ installed) arrivals.
Proof.
  induction arrivals as [|sig rest IH]; cbn [existsb]; [done|].
  case_bool_decide as Hin; [intros _; by apply Exists_cons_hd|].
  intros Hrest. apply Exists_cons_tl. by apply IH.
Qed.

(** X11.  [Run] calls [Stop] at most once, and only at the end of a whole life:
    after a startup without error, with the signal handler installed, when
    a handled signal is delivered.  In every other run [Stop] is not
    called. *)
Theorem Run_calls_Stop_at_most_once ctx s :
  (Stop_count (trace (Run ctx s)) ≤ 1)%nat ∧
  (Stop_count (trace (Run ctx s)) = 1%nat ↔
     result (startup steps s) = Some None ∧
     syssig_AddSignalsHandler quit_signals = None ∧
     Exists (λ sig, sig ∈ quit_signals) (delivered ctx)).
Proof.
  pose proof (Run_cases ctx s) as Hrun. cbv zeta in Hrun.
  assert (Stop_count (trace (initPlugin s) ++ trace (startup steps s))
          = 0%nat) as Hquiet.
  { apply Stop_count_quiet, Forall_app. split; [by repeat constructor|].
    eapply Forall_impl; [apply startup_no_Stop_call|]. by intros x (? & _). }
  destruct (result (startup steps s)) as [[c|]|]; rewrite Hrun; cbn [trace].
  - rewrite Hquiet. split; [lia|split; [done|by intros (? & _)]].
  - rewrite app_assoc, Stop_count_app, Hquiet, waitQuit_spec. cbn [Nat.add].
    destruct (syssig_AddSignalsHandler quit_signals) as [e|].
    { cbn [trace]. rewrite Stop_count_quiet by (by repeat constructor).
      split; [lia|split; [done|by intros (_ & ? & _)]]. }
    destruct (existsb _ _) eqn:Hex; cbn [trace].
    + rewrite Stop_count_app, Stop_count_Stop.
      rewrite Stop_count_quiet by (by repeat constructor).
      split; [lia|]. split; [|done].
      intros _. repeat split. by apply existsb_handled_inv.
    + rewrite Stop_count_quiet by (by repeat constructor).
      split; [lia|]. split; [done|].
      intros (_ & _ & Hsig). apply existsb_handled in Hsig. congruence.
  - rewrite Hquiet. split; [lia|split; [done|by intros (? & _)]].
Qed.

(** X12.  The configuration is read only: neither [Run], whichever way it ends,
    nor [Stop] changes it. *)
Theorem conf_is_kept ctx s :
  conf (final (Run ctx s)) = conf s ∧ conf (final (Stop s)) = conf s.
Proof.
  split; [|by rewrite Stop_spec].
  assert (conf (final (startup steps s)) = conf s) as Hst
    by (exec; reflexivity).
  pose proof (Run_cases ctx s) as Hrun. cbv zeta in Hrun.
  destruct (result (startup steps s)) as [[c|]|]; rewrite Hrun; cbn [final];
    try done.
  rewrite waitQuit_spec.
  destruct (syssig_AddSignalsHandler quit_signals); [done|].
  by destruct (existsb _ _).
Qed.

End More3.

(** ** The further properties on concrete runs *)

Lemma Run_failure_is_logged_witness :
  let K := sim grpc_Run_fails in
  let s := NewServer sample_conf in
  result (startup steps s) = Some (Some TransportServer) ∧
  ∃ format, format ∈ failure_formats TransportServer ∧
            last (trace (Run two_signals s)) = Some (c_log_Errorf format).
Proof.
  cbv zeta.
  assert (result (startup (K := sim grpc_Run_fails) steps
                    (NewServer sample_conf))
          = Some (Some TransportServer)) as Hfail
    by (vm_compute; reflexivity).
  split; [exact Hfail|].
  exact (proj1 (Run_failure_is_logged (K := sim grpc_Run_fails) two_signals
                  (NewServer sample_conf)) TransportServer Hfail).
Defined.

Lemma Run_handler_install_failure_witness :
  let K := sim AddSignalsHandler_fails in
  let s := NewServer sample_conf in
  result (startup steps s) = Some None ∧
  syssig_AddSignalsHandler quit_signals = Some "signals" ∧
  Stop_count (trace (Run two_signals s)) = 0%nat.
Proof.
  cbv zeta.
  assert (result (startup (K := sim AddSignalsHandler_fails) steps
                    (NewServer sample_conf)) = Some None) as Hok
    by (vm_compute; reflexivity).
  assert (@syssig_AddSignalsHandler (sim AddSignalsHandler_fails)
            quit_signals = Some "signals") as Hinst
    by (vm_compute; reflexivity).
  split; [exact Hok|]. split; [exact Hinst|].
  pose proof (Run_handler_install_failure (K := sim AddSignalsHandler_fails)
                two_signals (NewServer sample_conf) "signals" Hok Hinst)
    as (_ & _ & _ & _ & Hcount & _).
  exact Hcount.
Defined.

Lemma Stop_after_aborted_Run_witness :
  let K := sim grpc_Run_fails in
  let s := NewServer sample_conf in
  result (startup steps s) = Some (Some TransportServer) ∧
  c_grpc_Stop ∈ trace (Stop (final (Run two_signals s))).
Proof.
  cbv zeta.
  assert (result (startup (K := sim grpc_Run_fails) steps
                    (NewServer sample_conf))
          = Some (Some TransportServer)) as Hfail
    by (vm_compute; reflexivity).
  split; [exact Hfail|].
  pose proof (Stop_after_aborted_Run (K := sim grpc_Run_fails) two_signals
                sample_conf TransportServer Hfail) as (_ & Hgrpc & _).
  apply Hgrpc. by left.
Defined.

Lemma runSerf_open_failure_witness :
  let K := sim OpenFile_fails in
  let s := NewServer first_node_conf in
  LogFile (conf s) ≠ "" ∧
  utils_OpenFile (LogFile (conf s)) = (None, Some "open") ∧
  result (runSerf s) =
    result (runSerf (with_conf s (without_LogFile (conf s)))).
Proof.
  cbv zeta.
  assert (LogFile (conf (NewServer (K := sim OpenFile_fails) first_node_conf))
          ≠ "") as Hlf by discriminate.
  assert (@utils_OpenFile (sim OpenFile_fails)
            (LogFile (conf (NewServer (K := sim OpenFile_fails)
                              first_node_conf)))
          = (None, Some "open")) as Hopen by (vm_compute; reflexivity).
  split; [exact Hlf|]. split; [exact Hopen|].
  pose proof (runSerf_open_failure (K := sim OpenFile_fails)
                (NewServer first_node_conf) None "open" Hlf Hopen)
    as (Hres & _).
  exact Hres.
Defined.

Lemma runSerf_call_order_witness :
  let K := sim no_faults in
  let s := NewServer sample_conf in
  result (runSerf s) = Some None ∧
  filter (λ x, is_serf_call x = true) (trace (runSerf s)) =
    [c_serf_Create; c_serf_RegisterEventHandler; c_serf_Start;
     c_serf_Join ["10.0.0.2:30190"]].
Proof.
  cbv zeta.
  assert (result (runSerf (K := sim no_faults) (NewServer sample_conf))
          = Some None) as Hok by (vm_compute; reflexivity).
  split; [exact Hok|].
  pose proof (runSerf_call_order (K := sim no_faults)
                (NewServer sample_conf)) as (_ & _ & _ & Hcalls & _).
  exact (Hcalls Hok).
Defined.

Lemma Run_depends_on_conf_only_witness :
  let K := sim no_faults in
  let s := final (Run two_signals (NewServer sample_conf)) in
  result (startup steps s) = Some None ∧
  final (Run two_signals s) = final (Run two_signals (NewServer (conf s))).
Proof.
  cbv zeta.
  assert (result (startup (K := sim no_faults) steps
                    (final (Run two_signals (NewServer sample_conf))))
          = Some None) as Hok by (vm_compute; reflexivity).
  split; [exact Hok|].
  pose proof (Run_depends_on_conf_only (K := sim no_faults) two_signals
                (final (Run two_signals (NewServer sample_conf))))
    as (_ & _ & Hfinal).
  exact (Hfinal Hok).
Defined.

Lemma Run_full_lifecycle_witness :
  let K := sim no_faults in
  let s := NewServer sample_conf in
  result (startup steps s) = Some None ∧
  syssig_AddSignalsHandler quit_signals = None ∧
  Exists (λ sig, sig ∈ quit_signals) (delivered two_signals) ∧
  final (Run two_signals s) = released (final (startup steps s)).
Proof.
  cbv zeta.
  assert (result (startup (K := sim no_faults) steps (NewServer sample_conf))
          = Some None) as Hok by (vm_compute; reflexivity).
  assert (@syssig_AddSignalsHandler (sim no_faults) quit_signals = None)
    as Hinst by (vm_compute; reflexivity).
  assert (Exists (λ sig, sig ∈ quit_signals) (delivered two_signals)) as Hex.
  { apply Exists_cons_hd. unfold quit_signals.
    do 2 apply list_elem_of_further. apply list_elem_of_here. }
  split; [exact Hok|]. split; [exact Hinst|]. split; [exact Hex|].
  pose proof (Run_full_lifecycle (K := sim no_faults) two_signals
                (NewServer sample_conf) Hok Hinst Hex) as (_ & Hfinal & _).
  exact Hfinal.
Defined.

Lemma createServiceCenter_addrs_witness :
  let K := sim no_faults in
  let s := final (runEtcd (NewServer sample_conf)) in
  etcd s = Some Running ∧
  ∃ addrs pre post,
    trace (createServiceCenter s) =
      pre ++ c_servicecenter_NewServicecenter addrs :: post ∧
    strings_Join addrs "," = SCAddr (conf s).
Proof.
  cbv zeta.
  assert (etcd (final (runEtcd (K := sim no_faults) (NewServer sample_conf)))
          = Some Running) as He by (vm_compute; reflexivity).
  split; [exact He|].
  destruct (createServiceCenter_addrs (K := sim no_faults) _ _ He)
    as (addrs & pre & post & Htr & _ & _ & _ & _ & _ & Hjoin & _).
  by exists addrs, pre, post.
Defined.
